(** * PagerDuty escalation policy operations

    A shallow embedding of [pagerduty_mcp_server/escalation_policies.py]:
    the three functions [list_escalation_policies], [show_escalation_policy]
    and [fetch_escalation_policy_ids], run in a small monad that records the
    calls made to the collaborating modules ([client], [parsers], [utils])
    and carries Python exceptions. *)

From Stdlib Require Import String Ascii List ZArith Bool Lia.
Import ListNotations.
Local Open Scope string_scope.
Local Open Scope list_scope.

Set Warnings "-register-all".

(** ** Python values *)

(** The JSON-like values that flow through the module.  A [dict] keeps its
    insertion order, as in Python, so it is an association list. *)
Inductive pyval : Type :=
| PNone
| PBool (b : bool)
| PInt (z : Z)
| PStr (s : string)
| PList (items : list pyval)
| PDict (entries : list (string * pyval)).

Definition pydict : Type := list (string * pyval).

(** [bool(v)]: the test made by [if v:] and [if not v:]. *)
Definition truthy (v : pyval) : bool :=
  match v with
  | PNone => false
  | PBool b => b
  | PInt z => negb (Z.eqb z 0)
  | PStr s => negb (String.eqb s "")
  | PList items => match items with [] => false | _ => true end
  | PDict entries => match entries with [] => false | _ => true end
  end.

(** [d.get(key)] on the association list. *)
Fixpoint dict_get (key : string) (d : pydict) : option pyval :=
  match d with
  | [] => None
  | (k, v) :: rest => if String.eqb k key then Some v else dict_get key rest
  end.

(** [d[key] = v]: overwrite in place, or append a new entry. *)
Fixpoint dict_set (key : string) (v : pyval) (d : pydict) : pydict :=
  match d with
  | [] => [(key, v)]
  | (k, w) :: rest =>
      if String.eqb k key then (k, v) :: rest else (k, w) :: dict_set key v rest
  end.

(** Optional keyword arguments as Python values: [None] when not given. *)
Definition of_opt_str (o : option string) : pyval :=
  match o with Some s => PStr s | None => PNone end.

Definition of_opt_strs (o : option (list string)) : pyval :=
  match o with Some l => PList (map PStr l) | None => PNone end.

Definition of_opt_int (o : option Z) : pyval :=
  match o with Some z => PInt z | None => PNone end.

(** ** Exceptions *)

(** Subclasses of [Exception]; [exn_arg] is the single constructor argument
    (the message, or the missing key of a [KeyError]). *)
Inductive exn_class : Type :=
| ValueError
| RuntimeError
| KeyError
| TypeError
| OtherException (name : string).

Record exn : Type := mkExn { exn_kind : exn_class; exn_arg : string }.

Definition type_name (v : pyval) : string :=
  match v with
  | PNone => "NoneType"
  | PBool _ => "bool"
  | PInt _ => "int"
  | PStr _ => "str"
  | PList _ => "list"
  | PDict _ => "dict"
  end.

(** Outcome of a Python call: a returned value or a raised exception. *)
Inductive res (A : Type) : Type :=
| Ret (a : A)
| Raise (e : exn).
Arguments Ret {A} a.
Arguments Raise {A} e.

(** [v[key]] with a string key.  Only a dict has string keys; the messages
    of the [TypeError]s are CPython's. *)
Definition subscript (v : pyval) (key : string) : res pyval :=
  match v with
  | PDict d =>
      match dict_get key d with
      | Some x => Ret x
      | None => Raise (mkExn KeyError key)
      end
  | PList _ => Raise (mkExn TypeError "list indices must be integers or slices, not str")
  | PStr _ => Raise (mkExn TypeError "string indices must be integers, not 'str'")
  | _ => Raise (mkExn TypeError ("'" ++ type_name v ++ "' object is not subscriptable"))
  end.

Fixpoint chars (s : string) : list pyval :=
  match s with
  | EmptyString => []
  | String c rest => PStr (String c EmptyString) :: chars rest
  end.

(** The items visited by [for x in v]. *)
Definition py_iter (v : pyval) : res (list pyval) :=
  match v with
  | PList items => Ret items
  | PDict d => Ret (map (fun kv => PStr (fst kv)) d)
  | PStr s => Ret (chars s)
  | _ => Raise (mkExn TypeError ("'" ++ type_name v ++ "' object is not iterable"))
  end.

(** ** Calls to the collaborators *)

(** What an observer of the collaborators sees, in order. *)
Inductive event : Type :=
| EGetClient
| EListAll (path : string) (params : pydict)
| EJGet (path : string)
| EParse (raw : pyval)
| ERoute (e : exn).

Definition is_network (ev : event) : bool :=
  match ev with
  | EListAll _ _ | EJGet _ => true
  | _ => false
  end.

Definition is_route (ev : event) : bool :=
  match ev with ERoute _ => true | _ => false end.

Definition is_parse (ev : event) : bool :=
  match ev with EParse _ => true | _ => false end.

(** ** The monad: a trace of collaborator calls and an outcome *)

Definition M (A : Type) : Type := list event * res A.

Definition ret {A} (a : A) : M A := ([], Ret a).

Definition raise {A} (e : exn) : M A := ([], Raise e).

Definition bind {A B} (m : M A) (f : A -> M B) : M B :=
  match m with
  | (t, Ret a) => let '(t', r) := f a in (t ++ t', r)
  | (t, Raise e) => (t, Raise e)
  end.

Definition call {A} (ev : event) (r : res A) : M A := ([ev], r).

Definition lift {A} (r : res A) : M A := ([], r).

(** [try: body / except Exception as e: handler e]. *)
Definition try_except {A} (body : M A) (handler : exn -> M A) : M A :=
  match body with
  | (t, Raise e) => let '(t', r) := handler e in (t ++ t', r)
  | (t, Ret a) => (t, Ret a)
  end.

Notation "x <- m ;; k" := (bind m (fun x => k))
  (at level 61, m at next level, right associativity).
Notation "m ;;; k" := (bind m (fun _ => k))
  (at level 61, right associativity).

(** [[f(x) for x in xs]]: left to right, stopping at the first exception. *)
Fixpoint comprehension {A B} (f : A -> M B) (xs : list A) : M (list B) :=
  match xs with
  | [] => ret []
  | x :: rest =>
      y <- f x ;;
      ys <- comprehension f rest ;;
      ret (y :: ys)
  end.

(** The same loop without the trace, for stating what it computes. *)
Fixpoint traverse {A B} (f : A -> res B) (xs : list A) : res (list B) :=
  match xs with
  | [] => Ret []
  | x :: rest =>
      match f x with
      | Ret y =>
          match traverse f rest with
          | Ret ys => Ret (y :: ys)
          | Raise e => Raise e
          end
      | Raise e => Raise e
      end
  end.

(** ** Collaborators *)

(** The modules this file imports.  Their code is not part of this module;
    each is a function from its arguments to its outcome.
    - [list_all] and [jget] are the methods of the client handle returned by
      [client.get_api_client()];
    - [parse_escalation_policy] returns a normalized record, which the
      docstrings of this module type as [Dict[str, Any]];
    - [handle_api_error] is [utils.handle_api_error]: the source calls it
      without [raise], so in the model it may raise or return;
    - [describe] is the text [utils.api_response_handler] puts in
      [metadata.description], from the count and the resource name. *)
Record Collaborators : Type := {
  list_all : string -> pydict -> res (list pyval);
  jget : string -> res pyval;
  parse_escalation_policy : pyval -> res pydict;
  handle_api_error : exn -> res unit;
  describe : nat -> string -> string
}.

Definition never_returns (C : Collaborators) : Prop :=
  forall e, exists e', handle_api_error C e = Raise e'.

Section Operations.

Context (C : Collaborators).

(** Modelled from the spec: [client.get_api_client], which is not in this
    file.  It "returns a shared client handle"; the handle is the pair of
    methods [list_all] and [jget] of [C], and obtaining it is recorded. *)
Definition get_api_client : M unit := call EGetClient (Ret tt).

Definition pd_list_all (path : string) (params : pydict) : M (list pyval) :=
  call (EListAll path params) (list_all C path params).

Definition pd_jget (path : string) : M pyval :=
  call (EJGet path) (jget C path).

Definition parse (raw : pyval) : M pyval :=
  call (EParse raw)
       (match parse_escalation_policy C raw with
        | Ret d => Ret (PDict d)
        | Raise e => Raise e
        end).

Definition utils_handle_api_error (e : exn) : M unit :=
  call (ERoute e) (handle_api_error C e).

(** Modelled from the spec: [utils.api_response_handler], which is not in
    this file.  It "wraps a single object or list into the
    {<resource_name>: results, metadata: {count, description}} shape": the
    count is the length of a list and 1 for a single object. *)
Definition api_response_handler (results : pyval) (resource_name : string) : M pyval :=
  let count := match results with PList items => length items | _ => 1%nat end in
  ret (PDict [ (resource_name, results);
               ("metadata", PDict [ ("count", PInt (Z.of_nat count));
                                    ("description", PStr (describe C count resource_name)) ]) ]).

Definition ESCALATION_POLICIES_URL : string := "/escalation_policies".

(** Lines 46-54: the query parameters of the listing request. *)
Definition list_params (query : option string) (user_ids team_ids : option (list string))
           (limit : option Z) : pydict :=
  let params := [] in
  let params := if truthy (of_opt_str query)
                then dict_set "query" (of_opt_str query) params else params in
  let params := if truthy (of_opt_strs user_ids)
                then dict_set "user_ids[]" (of_opt_strs user_ids) params else params in
  let params := if truthy (of_opt_strs team_ids)
                then dict_set "team_ids[]" (of_opt_strs team_ids) params else params in
  let params := if truthy (of_opt_int limit)
                then dict_set "limit" (of_opt_int limit) params else params in
  params.

(** The body of the [try] block of [list_escalation_policies]. *)
Definition list_try (params : pydict) : M pyval :=
  response <- pd_list_all ESCALATION_POLICIES_URL params ;;
  parsed_response <- comprehension parse response ;;
  api_response_handler (PList parsed_response) "escalation_policies".

(** [except Exception as e: utils.handle_api_error(e)].  When the call
    returns, the function falls off its end and returns [None]. *)
Definition except_route (e : exn) : M pyval :=
  utils_handle_api_error e ;;; ret PNone.

(** What the caller gets once [e] has been handed to [handle_api_error]. *)
Definition routed (e : exn) : res pyval :=
  match handle_api_error C e with
  | Ret _ => Ret PNone
  | Raise e' => Raise e'
  end.

Definition list_escalation_policies (query : option string)
           (user_ids team_ids : option (list string)) (limit : option Z) : M pyval :=
  get_api_client ;;;
  let params := list_params query user_ids team_ids limit in
  try_except (list_try params) except_route.

(** The message of the [RuntimeError] of line 94. *)
Definition missing_field_message (policy_id : string) : string :=
  "Failed to fetch escalation policy " ++ policy_id
    ++ ": Response missing 'escalation_policy' field".

(** The inner [try] of [show_escalation_policy]: [response['escalation_policy']],
    a [KeyError] becoming a [RuntimeError]; [except KeyError] lets any other
    exception through. *)
Definition extract_policy (policy_id : string) (response : pyval) : M pyval :=
  try_except (lift (subscript response "escalation_policy"))
    (fun e => match exn_kind e with
              | KeyError => raise (mkExn RuntimeError (missing_field_message policy_id))
              | _ => raise e
              end).

Definition show_try (policy_id : string) : M pyval :=
  response <- pd_jget (ESCALATION_POLICIES_URL ++ "/" ++ policy_id) ;;
  policy_data <- extract_policy policy_id response ;;
  results <- parse policy_data ;;
  api_response_handler results "escalation_policy".

(** Past the guard [policy_id] is a non-empty [str], which an f-string
    inserts as it is. *)
Definition show_escalation_policy (policy_id : option string) : M pyval :=
  if negb (truthy (of_opt_str policy_id))
  then raise (mkExn ValueError "policy_id cannot be empty")
  else
    let policy_id := match policy_id with Some s => s | None => "" end in
    get_api_client ;;;
    try_except (show_try policy_id) except_route.

(** The body of the [try] block of [fetch_escalation_policy_ids]. *)
Definition fetch_try (user_id : string) : M pyval :=
  results <- list_escalation_policies None (Some [user_id]) None None ;;
  records <- lift (subscript results "escalation_policies") ;;
  items <- lift (py_iter records) ;;
  ids <- comprehension (fun result => lift (subscript result "id")) items ;;
  ret (PList ids).

Definition fetch_escalation_policy_ids (user_id : option string) : M pyval :=
  if negb (truthy (of_opt_str user_id))
  then raise (mkExn ValueError "user_id cannot be empty")
  else
    let user_id := match user_id with Some s => s | None => "" end in
    try_except (fetch_try user_id) except_route.

End Operations.

Arguments routed C e : simpl never.

(** ** Reading an envelope *)

(** [env['metadata']['count']]. *)
Definition metadata_count (env : pyval) : res pyval :=
  match subscript env "metadata" with
  | Ret metadata => subscript metadata "count"
  | Raise e => Raise e
  end.

(** The envelope built for a list of normalized records. *)
Definition list_envelope (C : Collaborators) (records : list pydict) : pyval :=
  PDict [ ("escalation_policies", PList (map PDict records));
          ("metadata",
           PDict [ ("count", PInt (Z.of_nat (length records)));
                   ("description",
                    PStr (describe C (length records) "escalation_policies")) ]) ].

(** The envelope built for one normalized record. *)
Definition single_envelope (C : Collaborators) (record : pydict) : pyval :=
  PDict [ ("escalation_policy", PDict record);
          ("metadata",
           PDict [ ("count", PInt 1);
                   ("description", PStr (describe C 1 "escalation_policy")) ]) ].

(** ** Substitutable fakes of the collaborators *)

Definition policy_EP1 : pydict := [("id", PStr "EP1"); ("name", PStr "Primary on-call")].
Definition policy_EP2 : pydict := [("id", PStr "EP2"); ("name", PStr "Secondary on-call")].
Definition policy_unnamed : pydict := [("name", PStr "Orphan")].

(** A normalizer that keeps objects as they are and rejects anything else. *)
Definition fake_parse (raw : pyval) : res pydict :=
  match raw with
  | PDict d => Ret d
  | _ => Raise (mkExn (OtherException "AttributeError") "object has no attribute 'get'")
  end.

(** A router that re-raises every exception as a [RuntimeError]. *)
Definition fake_route (e : exn) : res unit :=
  Raise (mkExn RuntimeError ("API request failed: " ++ exn_arg e)).

Definition fake_describe (count : nat) (resource_name : string) : string :=
  "Results for resource type " ++ resource_name.

(** A service with two policies; only [EP1] can be fetched by id. *)
Definition fake_service : Collaborators := {|
  list_all := fun _ _ => Ret [PDict policy_EP1; PDict policy_EP2];
  jget := fun path =>
    if String.eqb path "/escalation_policies/EP1"
    then Ret (PDict [("escalation_policy", PDict policy_EP1)])
    else Ret (PDict [("error", PStr "Not Found")]);
  parse_escalation_policy := fake_parse;
  handle_api_error := fake_route;
  describe := fake_describe
|}.

(** A service with no policies at all. *)
Definition fake_empty_service : Collaborators := {|
  list_all := fun _ _ => Ret [];
  jget := fun _ => Ret (PDict [("error", PStr "Not Found")]);
  parse_escalation_policy := fake_parse;
  handle_api_error := fake_route;
  describe := fake_describe
|}.

(** A service whose second record comes back without an [id]. *)
Definition fake_service_missing_id : Collaborators := {|
  list_all := fun _ _ => Ret [PDict policy_EP1; PDict policy_unnamed; PDict policy_EP2];
  jget := fun _ => Ret (PDict [("error", PStr "Not Found")]);
  parse_escalation_policy := fake_parse;
  handle_api_error := fake_route;
  describe := fake_describe
|}.

(** A service whose every request fails. *)
Definition fake_unreachable : Collaborators := {|
  list_all := fun _ _ => Raise (mkExn (OtherException "HTTPError") "503 Service Unavailable");
  jget := fun _ => Raise (mkExn (OtherException "HTTPError") "503 Service Unavailable");
  parse_escalation_policy := fake_parse;
  handle_api_error := fake_route;
  describe := fake_describe
|}.


(** A router that only records the error and returns. *)
Definition fake_silent_route (e : exn) : res unit := Ret tt.

(** An unreachable service behind the silent router. *)
Definition fake_unreachable_silent : Collaborators := {|
  list_all := fun _ _ => Raise (mkExn (OtherException "HTTPError") "503 Service Unavailable");
  jget := fun _ => Raise (mkExn (OtherException "HTTPError") "503 Service Unavailable");
  parse_escalation_policy := fake_parse;
  handle_api_error := fake_silent_route;
  describe := fake_describe
|}.

(** A service with malformed answers: the second record of the listing is
    not an object, [EP1] comes back with a null policy, and any other id
    with an array as body. *)
Definition fake_malformed : Collaborators := {|
  list_all := fun _ _ => Ret [PDict policy_EP1; PStr "garbage"; PDict policy_EP2];
  jget := fun path =>
    if String.eqb path "/escalation_policies/EP1"
    then Ret (PDict [("escalation_policy", PNone)])
    else Ret (PList []);
  parse_escalation_policy := fake_parse;
  handle_api_error := fake_route;
  describe := fake_describe
|}.

(** ** Vocabulary of the further properties *)

(** The requests a run sends to the service, in order. *)
Definition requests {A} (run : M A) : list event :=
  filter is_network (fst run).

Definition is_dict (v : pyval) : bool :=
  match v with PDict _ => true | _ => false end.

(** The keys lines 46-54 can store, in the order they are stored. *)
Definition list_param_keys : list string :=
  ["query"; "user_ids[]"; "team_ids[]"; "limit"].

(** Line 133 of [fetch_escalation_policy_ids]: what is done with the
    value the list operation returned. *)
Definition project_ids (results : pyval) : M pyval :=
  records <- lift (subscript results "escalation_policies") ;;
  items <- lift (py_iter records) ;;
  ids <- comprehension (fun result => lift (subscript result "id")) items ;;
  ret (PList ids).

(** ** Properties of the loop and of the monad *)

Section Loops.

Context {A B : Type}.

Lemma comprehension_lift (f : A -> res B) (xs : list A) :
  comprehension (fun x => lift (f x)) xs = lift (traverse f xs).
Proof.
  induction xs as [|x rest IH]; [reflexivity|].
  cbn [comprehension traverse]. rewrite IH. unfold lift, bind, ret.
  destruct (f x) as [y|e]; [|reflexivity].
  destruct (traverse f rest) as [ys|e]; reflexivity.
Qed.

Lemma traverse_length (f : A -> res B) (xs : list A) (ys : list B) :
  traverse f xs = Ret ys -> length ys = length xs.
Proof.
  revert ys. induction xs as [|x rest IH]; intros ys H; cbn in H.
  - injection H as <-. reflexivity.
  - destruct (f x) as [y|e]; [|discriminate].
    destruct (traverse f rest) as [ys'|e]; [|discriminate].
    injection H as <-. cbn. f_equal. apply IH. reflexivity.
Qed.

Lemma traverse_Forall2 (f : A -> res B) (xs : list A) (ys : list B) :
  Forall2 (fun x y => f x = Ret y) xs ys -> traverse f xs = Ret ys.
Proof.
  induction 1 as [|x y xs ys Hxy _ IH]; cbn; [reflexivity|].
  rewrite Hxy, IH. reflexivity.
Qed.

Lemma traverse_Exists_raise (f : A -> res B) (xs : list A) :
  Exists (fun x => exists e, f x = Raise e) xs ->
  exists e, traverse f xs = Raise e.
Proof.
  induction 1 as [x rest [e He]|x rest _ [e IH]]; cbn.
  - exists e. rewrite He. reflexivity.
  - destruct (f x) as [y|e0]; [|exists e0; reflexivity].
    exists e. rewrite IH. reflexivity.
Qed.

End Loops.

Section Runs.

Context (C : Collaborators).

Lemma comprehension_parse_ok (raws : list pyval) (ps : list pydict) :
  traverse (parse_escalation_policy C) raws = Ret ps ->
  comprehension (parse C) raws = (map EParse raws, Ret (map PDict ps)).
Proof.
  revert ps. induction raws as [|raw rest IH]; intros ps H; cbn in H.
  - injection H as <-. reflexivity.
  - cbn [comprehension]. unfold parse at 1, call, bind.
    destruct (parse_escalation_policy C raw) as [p|e]; [|discriminate].
    destruct (traverse (parse_escalation_policy C) rest) as [ps'|e]; [|discriminate].
    injection H as <-. rewrite (IH ps' eq_refl). cbn.
    rewrite app_nil_r. reflexivity.
Qed.

Lemma comprehension_parse_raise (raws : list pyval) (e : exn) :
  traverse (parse_escalation_policy C) raws = Raise e ->
  exists k, (k < length raws)%nat /\
    comprehension (parse C) raws = (map EParse (firstn (S k) raws), Raise e).
Proof.
  induction raws as [|raw rest IH]; intros H; cbn in H; [discriminate|].
  cbn [comprehension]. unfold parse at 1, call, bind.
  destruct (parse_escalation_policy C raw) as [p|e0].
  - destruct (traverse (parse_escalation_policy C) rest) as [ps'|e0]; [discriminate|].
    injection H as ->. destruct (IH eq_refl) as [k [Hk Hrun]].
    exists (S k). split; [cbn; lia|]. rewrite Hrun. reflexivity.
  - injection H as ->. exists 0%nat. split; [cbn; lia|]. reflexivity.
Qed.

(** The three ways a run of [list_escalation_policies] can go. *)
Lemma list_run_ok query user_ids team_ids limit raws ps :
  list_all C ESCALATION_POLICIES_URL (list_params query user_ids team_ids limit) = Ret raws ->
  traverse (parse_escalation_policy C) raws = Ret ps ->
  list_escalation_policies C query user_ids team_ids limit =
    (EGetClient
       :: EListAll ESCALATION_POLICIES_URL (list_params query user_ids team_ids limit)
       :: map EParse raws,
     Ret (list_envelope C ps)).
Proof.
  intros Hreq Hparse.
  unfold list_escalation_policies, list_try, pd_list_all, get_api_client, call.
  cbn [bind]. rewrite Hreq. cbn [bind].
  rewrite (comprehension_parse_ok raws ps Hparse).
  unfold api_response_handler, ret, try_except, list_envelope. cbn.
  rewrite !app_nil_r, !length_map. reflexivity.
Qed.

Lemma list_run_request_fails query user_ids team_ids limit e :
  list_all C ESCALATION_POLICIES_URL (list_params query user_ids team_ids limit) = Raise e ->
  list_escalation_policies C query user_ids team_ids limit =
    ([EGetClient;
      EListAll ESCALATION_POLICIES_URL (list_params query user_ids team_ids limit);
      ERoute e],
     routed C e).
Proof.
  intros Hreq.
  unfold list_escalation_policies, list_try, pd_list_all, get_api_client, call.
  cbn [bind]. rewrite Hreq. cbn [bind try_except].
  unfold except_route, utils_handle_api_error, call, routed, bind, ret.
  destruct (handle_api_error C e); reflexivity.
Qed.

Lemma list_run_parse_fails query user_ids team_ids limit raws e :
  list_all C ESCALATION_POLICIES_URL (list_params query user_ids team_ids limit) = Ret raws ->
  traverse (parse_escalation_policy C) raws = Raise e ->
  exists k, (k < length raws)%nat /\
  list_escalation_policies C query user_ids team_ids limit =
    (EGetClient
       :: EListAll ESCALATION_POLICIES_URL (list_params query user_ids team_ids limit)
       :: map EParse (firstn (S k) raws) ++ [ERoute e],
     routed C e).
Proof.
  intros Hreq Hparse.
  destruct (comprehension_parse_raise raws e Hparse) as [k [Hk Hrun]].
  exists k. split; [exact Hk|].
  unfold list_escalation_policies, list_try, pd_list_all, get_api_client, call.
  cbn [bind]. rewrite Hreq. cbn [bind]. rewrite Hrun. cbn [bind try_except].
  unfold except_route, utils_handle_api_error, call, routed, bind, ret.
  destruct (handle_api_error C e); cbn; rewrite ?app_nil_r; reflexivity.
Qed.

End Runs.

(** ** show_escalation_policy *)

Lemma nonempty_truthy (s : string) : s <> "" -> truthy (PStr s) = true.
Proof.
  intros H. cbn. apply negb_true_iff, String.eqb_neq. exact H.
Qed.

(** Past their guard, the two functions that take an id run their [try]. *)
Lemma show_nonempty (C : Collaborators) (policy_id : string) :
  policy_id <> "" ->
  show_escalation_policy C (Some policy_id)
    = (get_api_client ;;; try_except (show_try C policy_id) (except_route C)).
Proof.
  intros Hne. unfold show_escalation_policy. cbn [of_opt_str].
  rewrite (nonempty_truthy _ Hne). reflexivity.
Qed.

Lemma fetch_nonempty (C : Collaborators) (user_id : string) :
  user_id <> "" ->
  fetch_escalation_policy_ids C (Some user_id)
    = try_except (fetch_try C user_id) (except_route C).
Proof.
  intros Hne. unfold fetch_escalation_policy_ids. cbn [of_opt_str].
  rewrite (nonempty_truthy _ Hne). reflexivity.
Qed.

Lemma except_route_run (C : Collaborators) (e : exn) :
  except_route C e = ([ERoute e], routed C e).
Proof.
  unfold except_route, utils_handle_api_error, call, routed, bind, ret.
  destruct (handle_api_error C e); reflexivity.
Qed.

Ltac show_path policy_id :=
  change (ESCALATION_POLICIES_URL ++ "/" ++ policy_id)%string
    with ("/escalation_policies/" ++ policy_id)%string.

(** C1: called with an empty or [None] [policy_id], [show_escalation_policy]
    raises [ValueError] at once: the client is not obtained, no request is
    made and the error does not go through [handle_api_error] (the trace of
    collaborator calls is empty). *)
Theorem show_empty_id_raises_value_error (C : Collaborators) (policy_id : option string) :
  policy_id = None \/ policy_id = Some "" ->
  show_escalation_policy C policy_id
    = ([], Raise (mkExn ValueError "policy_id cannot be empty")).
Proof.
  intros [-> | ->]; reflexivity.
Qed.

Lemma show_empty_id_raises_value_error_witness :
  show_escalation_policy fake_service (Some "")
    = ([], Raise (mkExn ValueError "policy_id cannot be empty")).
Proof.
  apply (show_empty_id_raises_value_error fake_service (Some "")).
  right. reflexivity.
Defined.

(** C2: for a non-empty [policy_id], the only request of
    [show_escalation_policy] is one [jget] of
    [/escalation_policies/{policy_id}]; when it succeeds and the body has the
    [escalation_policy] field, the result is the envelope keyed
    [escalation_policy] that holds the normalized object, with
    [metadata.count] equal to 1. *)
Theorem show_one_get_and_single_envelope (C : Collaborators) (policy_id : string) :
  policy_id <> "" ->
  filter is_network (fst (show_escalation_policy C (Some policy_id)))
    = [EJGet ("/escalation_policies/" ++ policy_id)]
  /\ forall body raw record,
       jget C ("/escalation_policies/" ++ policy_id) = Ret body ->
       subscript body "escalation_policy" = Ret raw ->
       parse_escalation_policy C raw = Ret record ->
       let env := single_envelope C record in
       show_escalation_policy C (Some policy_id)
         = ([EGetClient; EJGet ("/escalation_policies/" ++ policy_id); EParse raw], Ret env)
       /\ subscript env "escalation_policy" = Ret (PDict record)
       /\ metadata_count env = Ret (PInt 1).
Proof.
  intros Hne. rewrite (show_nonempty C policy_id Hne).
  unfold show_try, pd_jget, extract_policy, parse, get_api_client, call, lift,
    api_response_handler, raise, ret.
  show_path policy_id.
  split.
  - cbn [bind].
    destruct (jget C _) as [body|e]; cbn [bind try_except].
    + destruct (subscript body "escalation_policy") as [raw|e]; cbn [bind try_except].
      * destruct (parse_escalation_policy C raw) as [record|e]; cbn [bind try_except].
        -- reflexivity.
        -- rewrite except_route_run. reflexivity.
      * destruct (exn_kind e); cbn [bind try_except];
          rewrite except_route_run; reflexivity.
    + rewrite except_route_run. reflexivity.
  - intros body raw record Hget Hfield Hparse.
    split; [|split; reflexivity].
    cbn [bind]. rewrite Hget. cbn [bind try_except]. rewrite Hfield.
    cbn [bind try_except]. rewrite Hparse. reflexivity.
Qed.

Lemma show_one_get_and_single_envelope_witness :
  filter is_network (fst (show_escalation_policy fake_service (Some "EP1")))
    = [EJGet "/escalation_policies/EP1"]
  /\ show_escalation_policy fake_service (Some "EP1")
       = ([EGetClient; EJGet "/escalation_policies/EP1"; EParse (PDict policy_EP1)],
          Ret (single_envelope fake_service policy_EP1)).
Proof.
  destruct (show_one_get_and_single_envelope fake_service "EP1") as [Hone Hrun];
    [discriminate|].
  split; [exact Hone|].
  apply (Hrun (PDict [("escalation_policy", PDict policy_EP1)]) (PDict policy_EP1) policy_EP1);
    reflexivity.
Defined.

(** C3: for a non-empty [policy_id], when the body of the response is an
    object without the [escalation_policy] field, [show_escalation_policy]
    raises a [RuntimeError] (not a [ValueError]) whose message names the
    field and the requested id; the normalizer has not been called, and the
    error is handed to [handle_api_error], whose outcome the caller gets. *)
Theorem show_missing_field_routed (C : Collaborators) (policy_id : string) (body : pydict) :
  policy_id <> "" ->
  jget C ("/escalation_policies/" ++ policy_id) = Ret (PDict body) ->
  dict_get "escalation_policy" body = None ->
  let e := mkExn RuntimeError
             ("Failed to fetch escalation policy " ++ policy_id
                ++ ": Response missing 'escalation_policy' field") in
  show_escalation_policy C (Some policy_id)
    = ([EGetClient; EJGet ("/escalation_policies/" ++ policy_id); ERoute e], routed C e)
  /\ exn_kind e <> ValueError
  /\ existsb is_parse (fst (show_escalation_policy C (Some policy_id))) = false.
Proof.
  intros Hne Hget Hfield e.
  assert (Hrun : show_escalation_policy C (Some policy_id)
            = ([EGetClient; EJGet ("/escalation_policies/" ++ policy_id); ERoute e],
               routed C e)).
  { rewrite (show_nonempty C policy_id Hne).
    unfold show_try, pd_jget, extract_policy, get_api_client, call, lift.
    show_path policy_id.
    cbn [bind]. rewrite Hget. cbn [bind try_except subscript]. rewrite Hfield.
    cbn [bind try_except exn_kind raise].
    rewrite except_route_run. reflexivity. }
  split; [exact Hrun|]. split; [discriminate|].
  rewrite Hrun. reflexivity.
Qed.

Lemma show_missing_field_routed_witness :
  show_escalation_policy fake_service (Some "EP9")
    = ([EGetClient; EJGet "/escalation_policies/EP9";
        ERoute (mkExn RuntimeError
                  "Failed to fetch escalation policy EP9: Response missing 'escalation_policy' field")],
       Raise (mkExn RuntimeError
                "API request failed: Failed to fetch escalation policy EP9: Response missing 'escalation_policy' field")).
Proof.
  apply (show_missing_field_routed fake_service "EP9" [("error", PStr "Not Found")]).
  - discriminate.
  - reflexivity.
  - reflexivity.
Defined.

(** ** list_escalation_policies *)

Lemma nonempty_list_truthy (ids : list string) :
  ids <> [] -> truthy (of_opt_strs (Some ids)) = true.
Proof.
  destruct ids; [congruence | reflexivity].
Qed.

Lemma nonzero_truthy (n : Z) : n <> 0%Z -> truthy (of_opt_int (Some n)) = true.
Proof.
  intros H. cbn. apply negb_true_iff, Z.eqb_neq. exact H.
Qed.

Lemma no_network_in_parses (raws : list pyval) :
  filter is_network (map EParse raws) = [].
Proof.
  induction raws; [reflexivity | exact IHraws].
Qed.

Lemma no_route_in_parses (raws : list pyval) :
  existsb is_route (map EParse raws) = false.
Proof.
  induction raws; [reflexivity | exact IHraws].
Qed.

(** Every run makes exactly one request: the listing, with [list_params]. *)
Lemma list_one_request (C : Collaborators) query user_ids team_ids limit :
  filter is_network (fst (list_escalation_policies C query user_ids team_ids limit))
    = [EListAll ESCALATION_POLICIES_URL (list_params query user_ids team_ids limit)].
Proof.
  destruct (list_all C ESCALATION_POLICIES_URL (list_params query user_ids team_ids limit))
    as [raws|e] eqn:Hreq.
  - destruct (traverse (parse_escalation_policy C) raws) as [ps|e] eqn:Hparse.
    + rewrite (list_run_ok C _ _ _ _ raws ps Hreq Hparse). cbn.
      rewrite no_network_in_parses. reflexivity.
    + destruct (list_run_parse_fails C _ _ _ _ raws e Hreq Hparse) as [k [_ ->]].
      cbn. rewrite filter_app, no_network_in_parses. reflexivity.
  - rewrite (list_run_request_fails C _ _ _ _ e Hreq). reflexivity.
Qed.

(** C4: [user_ids=[]] (and [team_ids=[]]) gives the same run as leaving the
    argument out, whatever the other filters: the one request the call sends
    has no [user_ids[]] ([team_ids[]]) parameter.  With a non-empty
    collection the one request the call sends has the whole collection under
    the array-style key. *)
Theorem list_empty_ids_same_as_absent (C : Collaborators)
        (query : option string) (user_ids team_ids : option (list string))
        (limit : option Z) (ids : list string) :
  list_escalation_policies C query (Some []) team_ids limit
    = list_escalation_policies C query None team_ids limit
  /\ list_escalation_policies C query user_ids (Some []) limit
    = list_escalation_policies C query user_ids None limit
  /\ dict_get "user_ids[]" (list_params query (Some []) team_ids limit) = None
  /\ dict_get "team_ids[]" (list_params query user_ids (Some []) limit) = None
  /\ (ids <> [] ->
      dict_get "user_ids[]" (list_params query (Some ids) team_ids limit)
        = Some (PList (map PStr ids))
      /\ dict_get "team_ids[]" (list_params query user_ids (Some ids) limit)
        = Some (PList (map PStr ids)))
  /\ (exists params,
        requests (list_escalation_policies C query (Some []) team_ids limit)
          = [EListAll "/escalation_policies" params]
        /\ dict_get "user_ids[]" params = None)
  /\ (exists params,
        requests (list_escalation_policies C query user_ids (Some []) limit)
          = [EListAll "/escalation_policies" params]
        /\ dict_get "team_ids[]" params = None)
  /\ (ids <> [] ->
      (exists params,
         requests (list_escalation_policies C query (Some ids) team_ids limit)
           = [EListAll "/escalation_policies" params]
         /\ dict_get "user_ids[]" params = Some (PList (map PStr ids)))
      /\ (exists params,
            requests (list_escalation_policies C query user_ids (Some ids) limit)
              = [EListAll "/escalation_policies" params]
            /\ dict_get "team_ids[]" params = Some (PList (map PStr ids)))).
Proof.
  assert (Huser : dict_get "user_ids[]" (list_params query (Some []) team_ids limit) = None).
  { unfold list_params. cbn [of_opt_strs map truthy].
    destruct (truthy (of_opt_str query)), (truthy (of_opt_strs team_ids)),
      (truthy (of_opt_int limit)); reflexivity. }
  assert (Hteam : dict_get "team_ids[]" (list_params query user_ids (Some []) limit) = None).
  { unfold list_params. cbn [of_opt_strs map truthy].
    destruct (truthy (of_opt_str query)), (truthy (of_opt_strs user_ids)),
      (truthy (of_opt_int limit)); reflexivity. }
  assert (Hsent : ids <> [] ->
      dict_get "user_ids[]" (list_params query (Some ids) team_ids limit)
        = Some (PList (map PStr ids))
      /\ dict_get "team_ids[]" (list_params query user_ids (Some ids) limit)
        = Some (PList (map PStr ids))).
  { intros Hne. unfold list_params. rewrite (nonempty_list_truthy ids Hne).
    split.
    - destruct (truthy (of_opt_str query)), (truthy (of_opt_strs team_ids)),
        (truthy (of_opt_int limit)); reflexivity.
    - destruct (truthy (of_opt_str query)), (truthy (of_opt_strs user_ids)),
        (truthy (of_opt_int limit)); reflexivity. }
  split; [reflexivity|]. split; [reflexivity|].
  split; [exact Huser|]. split; [exact Hteam|]. split; [exact Hsent|].
  split; [|split].
  - eexists. split; [apply list_one_request | exact Huser].
  - eexists. split; [apply list_one_request | exact Hteam].
  - intros Hne. destruct (Hsent Hne) as [Hu Ht]. split.
    + eexists. split; [apply list_one_request | exact Hu].
    + eexists. split; [apply list_one_request | exact Ht].
Qed.

Lemma list_empty_ids_same_as_absent_witness :
  (exists params,
     requests (list_escalation_policies fake_service None (Some ["U1"])
                                        (Some ["T1"; "T2"]) None)
       = [EListAll "/escalation_policies" params]
     /\ dict_get "user_ids[]" params = Some (PList [PStr "U1"]))
  /\ (exists params,
        requests (list_escalation_policies fake_service None None (Some ["T1"; "T2"]) None)
          = [EListAll "/escalation_policies" params]
        /\ dict_get "team_ids[]" params = Some (PList [PStr "T1"; PStr "T2"])).
Proof.
  split.
  - apply (list_empty_ids_same_as_absent fake_service None None (Some ["T1"; "T2"]) None ["U1"]).
    discriminate.
  - apply (list_empty_ids_same_as_absent fake_service None None None None ["T1"; "T2"]).
    discriminate.
Defined.

(** C7: with a non-zero [limit] the one request the call sends has the
    limit, unchanged, under the key [limit]; with [limit=0] the request
    parameters, and the whole run, are those of a call without [limit], and
    the request has no [limit] parameter. *)
Theorem list_limit_zero_same_as_absent (C : Collaborators)
        (query : option string) (user_ids team_ids : option (list string)) (n : Z) :
  (n <> 0%Z ->
   dict_get "limit" (list_params query user_ids team_ids (Some n)) = Some (PInt n))
  /\ list_params query user_ids team_ids (Some 0%Z)
     = list_params query user_ids team_ids None
  /\ list_escalation_policies C query user_ids team_ids (Some 0%Z)
     = list_escalation_policies C query user_ids team_ids None
  /\ (n <> 0%Z ->
      exists params,
        requests (list_escalation_policies C query user_ids team_ids (Some n))
          = [EListAll "/escalation_policies" params]
        /\ dict_get "limit" params = Some (PInt n))
  /\ (exists params,
        requests (list_escalation_policies C query user_ids team_ids (Some 0%Z))
          = [EListAll "/escalation_policies" params]
        /\ requests (list_escalation_policies C query user_ids team_ids None)
          = [EListAll "/escalation_policies" params]
        /\ dict_get "limit" params = None).
Proof.
  assert (Hsent : n <> 0%Z ->
    dict_get "limit" (list_params query user_ids team_ids (Some n)) = Some (PInt n)).
  { intros Hne. unfold list_params. rewrite (nonzero_truthy n Hne).
    destruct (truthy (of_opt_str query)), (truthy (of_opt_strs user_ids)),
      (truthy (of_opt_strs team_ids)); reflexivity. }
  split; [exact Hsent|]. split; [reflexivity|]. split; [reflexivity|]. split.
  - intros Hne. eexists. split; [apply list_one_request | exact (Hsent Hne)].
  - exists (list_params query user_ids team_ids None).
    split; [apply (list_one_request C query user_ids team_ids (Some 0%Z))|].
    split; [apply list_one_request|].
    unfold list_params. cbn [of_opt_int truthy].
    destruct (truthy (of_opt_str query)), (truthy (of_opt_strs user_ids)),
      (truthy (of_opt_strs team_ids)); reflexivity.
Qed.

Lemma list_limit_zero_same_as_absent_witness :
  exists params,
    requests (list_escalation_policies fake_service (Some "db") None None (Some 25%Z))
      = [EListAll "/escalation_policies" params]
    /\ dict_get "limit" params = Some (PInt 25).
Proof.
  apply (list_limit_zero_same_as_absent fake_service (Some "db") None None 25).
  discriminate.
Defined.

(** C8: without arguments [list_escalation_policies] sends the listing
    request with an empty parameter set, and whenever a call returns without
    having gone through the error handler, its envelope holds a list under
    [escalation_policies] whose length is [metadata.count]. *)
Theorem list_no_arguments_and_count (C : Collaborators) :
  list_params None None None None = []
  /\ filter is_network (fst (list_escalation_policies C None None None None))
     = [EListAll "/escalation_policies" []]
  /\ forall query user_ids team_ids limit env,
       snd (list_escalation_policies C query user_ids team_ids limit) = Ret env ->
       existsb is_route (fst (list_escalation_policies C query user_ids team_ids limit))
         = false ->
       exists items,
         subscript env "escalation_policies" = Ret (PList items)
         /\ metadata_count env = Ret (PInt (Z.of_nat (length items))).
Proof.
  split; [reflexivity|]. split; [apply list_one_request|].
  intros query user_ids team_ids limit env Hret Hroute.
  destruct (list_all C ESCALATION_POLICIES_URL (list_params query user_ids team_ids limit))
    as [raws|e] eqn:Hreq.
  - destruct (traverse (parse_escalation_policy C) raws) as [ps|e] eqn:Hparse.
    + rewrite (list_run_ok C _ _ _ _ raws ps Hreq Hparse) in Hret.
      cbn in Hret. injection Hret as <-.
      exists (map PDict ps). split; [reflexivity|].
      rewrite length_map. reflexivity.
    + destruct (list_run_parse_fails C _ _ _ _ raws e Hreq Hparse) as [k [_ Hrun]].
      rewrite Hrun in Hroute. cbn in Hroute.
      rewrite existsb_app in Hroute. cbn in Hroute.
      rewrite orb_true_r in Hroute. discriminate.
  - rewrite (list_run_request_fails C _ _ _ _ e Hreq) in Hroute. discriminate.
Qed.

Lemma list_no_arguments_and_count_witness :
  exists items,
    subscript (list_envelope fake_service [policy_EP1; policy_EP2]) "escalation_policies"
      = Ret (PList items)
    /\ metadata_count (list_envelope fake_service [policy_EP1; policy_EP2])
      = Ret (PInt (Z.of_nat (length items))).
Proof.
  apply (proj2 (proj2 (list_no_arguments_and_count fake_service)) None None None None);
    reflexivity.
Defined.

(** C9: in [list_escalation_policies] an exception raised by the listing
    request, or by the normalizer on some record, is caught and handed to
    [handle_api_error], whose outcome the caller gets.  So, when
    [handle_api_error] never returns, a call ends in one of two ways: the
    envelope of all the records of the response, each one normalized, or the
    error raised by [handle_api_error] for the exception it was given. *)
Theorem list_errors_routed (C : Collaborators)
        (query : option string) (user_ids team_ids : option (list string))
        (limit : option Z) :
  let params := list_params query user_ids team_ids limit in
  let run := list_escalation_policies C query user_ids team_ids limit in
  (forall e,
     list_all C ESCALATION_POLICIES_URL params = Raise e ->
     run = ([EGetClient; EListAll ESCALATION_POLICIES_URL params; ERoute e], routed C e))
  /\ (forall raws e,
        list_all C ESCALATION_POLICIES_URL params = Ret raws ->
        traverse (parse_escalation_policy C) raws = Raise e ->
        exists k, (k < length raws)%nat /\
          run = (EGetClient :: EListAll ESCALATION_POLICIES_URL params
                   :: map EParse (firstn (S k) raws) ++ [ERoute e],
                 routed C e))
  /\ (never_returns C ->
      (exists raws records,
         list_all C ESCALATION_POLICIES_URL params = Ret raws
         /\ traverse (parse_escalation_policy C) raws = Ret records
         /\ length records = length raws
         /\ existsb is_route (fst run) = false
         /\ snd run = Ret (list_envelope C records))
      \/ (exists e e',
            In (ERoute e) (fst run)
            /\ handle_api_error C e = Raise e'
            /\ snd run = Raise e')).
Proof.
  intros params run. subst params run.
  split; [|split].
  - intros e Hreq. apply list_run_request_fails. exact Hreq.
  - intros raws e Hreq Hparse. apply list_run_parse_fails; assumption.
  - intros Hnever.
    destruct (list_all C ESCALATION_POLICIES_URL (list_params query user_ids team_ids limit))
      as [raws|e] eqn:Hreq.
    + destruct (traverse (parse_escalation_policy C) raws) as [ps|e] eqn:Hparse.
      * left. exists raws, ps.
        rewrite (list_run_ok C _ _ _ _ raws ps Hreq Hparse). cbn [fst snd].
        split; [reflexivity|]. split; [exact Hparse|].
        split; [apply (traverse_length _ _ _ Hparse)|].
        split; [|reflexivity].
        cbn. apply no_route_in_parses.
      * right. destruct (Hnever e) as [e' He'].
        destruct (list_run_parse_fails C _ _ _ _ raws e Hreq Hparse) as [k [_ ->]].
        exists e, e'. cbn [fst snd].
        split; [|split; [exact He'|]].
        -- right. right. apply in_or_app. right. left. reflexivity.
        -- unfold routed. rewrite He'. reflexivity.
    + right. destruct (Hnever e) as [e' He'].
      rewrite (list_run_request_fails C _ _ _ _ e Hreq).
      exists e, e'. cbn [fst snd].
      split; [|split; [exact He'|]].
      * right. right. left. reflexivity.
      * unfold routed. rewrite He'. reflexivity.
Qed.

Lemma list_errors_routed_witness :
  list_escalation_policies fake_unreachable None None None None
    = ([EGetClient; EListAll ESCALATION_POLICIES_URL [];
        ERoute (mkExn (OtherException "HTTPError") "503 Service Unavailable")],
       Raise (mkExn RuntimeError "API request failed: 503 Service Unavailable"))
  /\ (exists k, (k < 3)%nat /\
        list_escalation_policies fake_malformed None (Some ["U1"]) None None
          = (EGetClient
               :: EListAll ESCALATION_POLICIES_URL [("user_ids[]", PList [PStr "U1"])]
               :: map EParse (firstn (S k) [PDict policy_EP1; PStr "garbage"; PDict policy_EP2])
               ++ [ERoute (mkExn (OtherException "AttributeError")
                                 "object has no attribute 'get'")],
             Raise (mkExn RuntimeError "API request failed: object has no attribute 'get'")))
  /\ ((exists raws records,
         list_all fake_unreachable ESCALATION_POLICIES_URL (list_params None None None None)
           = Ret raws
         /\ traverse (parse_escalation_policy fake_unreachable) raws = Ret records
         /\ length records = length raws
         /\ existsb is_route (fst (list_escalation_policies fake_unreachable None None None None))
            = false
         /\ snd (list_escalation_policies fake_unreachable None None None None)
            = Ret (list_envelope fake_unreachable records))
      \/ (exists e e',
            In (ERoute e) (fst (list_escalation_policies fake_unreachable None None None None))
            /\ handle_api_error fake_unreachable e = Raise e'
            /\ snd (list_escalation_policies fake_unreachable None None None None)
               = Raise e'))
  /\ ((exists raws records,
         list_all fake_service ESCALATION_POLICIES_URL (list_params None None None None)
           = Ret raws
         /\ traverse (parse_escalation_policy fake_service) raws = Ret records
         /\ length records = length raws
         /\ existsb is_route (fst (list_escalation_policies fake_service None None None None))
            = false
         /\ snd (list_escalation_policies fake_service None None None None)
            = Ret (list_envelope fake_service records))
      \/ (exists e e',
            In (ERoute e) (fst (list_escalation_policies fake_service None None None None))
            /\ handle_api_error fake_service e = Raise e'
            /\ snd (list_escalation_policies fake_service None None None None) = Raise e')).
Proof.
  split; [|split; [|split]].
  - apply (proj1 (list_errors_routed fake_unreachable None None None None)).
    reflexivity.
  - apply (proj1 (proj2 (list_errors_routed fake_malformed None (Some ["U1"]) None None))
             [PDict policy_EP1; PStr "garbage"; PDict policy_EP2]);
      reflexivity.
  - apply (proj2 (proj2 (list_errors_routed fake_unreachable None None None None))).
    intros e. exists (mkExn RuntimeError ("API request failed: " ++ exn_arg e)).
    reflexivity.
  - apply (proj2 (proj2 (list_errors_routed fake_service None None None None))).
    intros e. exists (mkExn RuntimeError ("API request failed: " ++ exn_arg e)).
    reflexivity.
Defined.

(** ** fetch_escalation_policy_ids *)

(** C5: for a non-empty [user_id], when the call
    [list_escalation_policies(user_ids=[user_id])] returns an envelope, the
    result is the list of the [id] fields of its [escalation_policies]
    records, in their order, and the empty list when there is no record;
    nothing more is added to the calls the list operation made. *)
Theorem fetch_ids_in_order (C : Collaborators) (user_id : string)
        (calls : list event) (env : pyval) :
  user_id <> "" ->
  list_escalation_policies C None (Some [user_id]) None None = (calls, Ret env) ->
  (forall records ids,
     subscript env "escalation_policies" = Ret (PList records) ->
     Forall2 (fun record id => subscript record "id" = Ret id) records ids ->
     fetch_escalation_policy_ids C (Some user_id) = (calls, Ret (PList ids)))
  /\ (subscript env "escalation_policies" = Ret (PList []) ->
      fetch_escalation_policy_ids C (Some user_id) = (calls, Ret (PList []))).
Proof.
  intros Hne Hlist.
  assert (Hgen : forall records ids,
     subscript env "escalation_policies" = Ret (PList records) ->
     Forall2 (fun record id => subscript record "id" = Ret id) records ids ->
     fetch_escalation_policy_ids C (Some user_id) = (calls, Ret (PList ids))).
  { intros records ids Hrecords Hids.
    rewrite (fetch_nonempty C user_id Hne).
    unfold fetch_try. rewrite Hlist. cbn [bind]. rewrite Hrecords.
    unfold lift at 1 2. cbn [bind py_iter].
    rewrite comprehension_lift, (traverse_Forall2 _ _ _ Hids).
    cbn. rewrite !app_nil_r. reflexivity. }
  split; [exact Hgen|].
  intros Hempty. apply (Hgen [] []); [exact Hempty | constructor].
Qed.

Lemma fetch_ids_in_order_witness :
  fetch_escalation_policy_ids fake_service (Some "U1")
    = ([EGetClient;
        EListAll "/escalation_policies" [("user_ids[]", PList [PStr "U1"])];
        EParse (PDict policy_EP1); EParse (PDict policy_EP2)],
       Ret (PList [PStr "EP1"; PStr "EP2"]))
  /\ fetch_escalation_policy_ids fake_empty_service (Some "U1")
    = ([EGetClient;
        EListAll "/escalation_policies" [("user_ids[]", PList [PStr "U1"])]],
       Ret (PList [])).
Proof.
  split.
  - apply (proj1 (fetch_ids_in_order fake_service "U1" _
                    (list_envelope fake_service [policy_EP1; policy_EP2])
                    ltac:(discriminate) eq_refl)
             [PDict policy_EP1; PDict policy_EP2]).
    + reflexivity.
    + repeat constructor.
  - apply (proj2 (fetch_ids_in_order fake_empty_service "U1" _
                    (list_envelope fake_empty_service [])
                    ltac:(discriminate) eq_refl)).
    reflexivity.
Defined.

(** C6, as the code has it: the [ValueError] for an empty or [None]
    [user_id] is raised before the [try] block of
    [fetch_escalation_policy_ids], so it reaches the caller as it is; no
    collaborator is called, [handle_api_error] included. *)
Theorem fetch_empty_id_raises_directly (C : Collaborators) (user_id : option string) :
  user_id = None \/ user_id = Some "" ->
  fetch_escalation_policy_ids C user_id
    = ([], Raise (mkExn ValueError "user_id cannot be empty")).
Proof.
  intros [-> | ->]; reflexivity.
Qed.

Lemma fetch_empty_id_raises_directly_witness :
  fetch_escalation_policy_ids fake_service None
    = ([], Raise (mkExn ValueError "user_id cannot be empty")).
Proof.
  apply (fetch_empty_id_raises_directly fake_service None).
  left. reflexivity.
Defined.

(** C6, as the claim has it, fails: with a router that re-raises every
    exception as a [RuntimeError], the call with [user_id=""] does not hand
    its [ValueError] to the router, and the caller gets the [ValueError],
    not the router's [RuntimeError]. *)
Lemma fetch_empty_id_rewrapped_counterexample :
  existsb is_route (fst (fetch_escalation_policy_ids fake_service (Some ""))) = false
  /\ ~ In (ERoute (mkExn ValueError "user_id cannot be empty"))
          (fst (fetch_escalation_policy_ids fake_service (Some "")))
  /\ routed fake_service (mkExn ValueError "user_id cannot be empty")
     = Raise (mkExn RuntimeError "API request failed: user_id cannot be empty")
  /\ snd (fetch_escalation_policy_ids fake_service (Some ""))
     = Raise (mkExn ValueError "user_id cannot be empty")
  /\ snd (fetch_escalation_policy_ids fake_service (Some ""))
     <> routed fake_service (mkExn ValueError "user_id cannot be empty").
Proof.
  split; [reflexivity|]. split; [intros []|].
  split; [reflexivity|]. split; [reflexivity|]. discriminate.
Qed.

(** C10: for a non-empty [user_id], when a record of the envelope returned
    by the list call has no [id] field, the projection raises, the exception
    is caught by the [except] clause of [fetch_escalation_policy_ids] and
    handed to [handle_api_error], and no list of ids is returned, partial or
    not.  When all records are objects the exception is [KeyError('id')]. *)
Theorem fetch_missing_id_routed (C : Collaborators) (user_id : string)
        (calls : list event) (env : pyval) (records : list pyval) :
  user_id <> "" ->
  list_escalation_policies C None (Some [user_id]) None None = (calls, Ret env) ->
  subscript env "escalation_policies" = Ret (PList records) ->
  Exists (fun record => exists d, record = PDict d /\ dict_get "id" d = None) records ->
  exists e,
    traverse (fun record => subscript record "id") records = Raise e
    /\ fetch_escalation_policy_ids C (Some user_id) = (calls ++ [ERoute e], routed C e)
    /\ (forall ids, snd (fetch_escalation_policy_ids C (Some user_id)) <> Ret (PList ids))
    /\ (Forall (fun record => exists d, record = PDict d) records ->
        e = mkExn KeyError "id").
Proof.
  intros Hne Hlist Hrecords Hmissing.
  destruct (traverse_Exists_raise (fun record => subscript record "id") records)
    as [e He].
  { apply Exists_exists. apply Exists_exists in Hmissing.
    destruct Hmissing as [record [Hin [d [-> Hd]]]].
    exists (PDict d). split; [exact Hin|].
    exists (mkExn KeyError "id"). cbn. rewrite Hd. reflexivity. }
  exists e.
  assert (Hrun : fetch_escalation_policy_ids C (Some user_id)
                 = (calls ++ [ERoute e], routed C e)).
  { rewrite (fetch_nonempty C user_id Hne).
    unfold fetch_try. rewrite Hlist. cbn [bind]. rewrite Hrecords.
    unfold lift at 1 2. cbn [bind py_iter].
    rewrite comprehension_lift, He. unfold lift. cbn [bind try_except].
    rewrite except_route_run, !app_nil_r. reflexivity. }
  split; [exact He|]. split; [exact Hrun|]. split.
  - intros ids. rewrite Hrun. cbn [snd]. unfold routed.
    destruct (handle_api_error C e); discriminate.
  - intros Hdicts. clear Hrun Hrecords Hmissing Hlist.
    induction records as [|record rest IH]; cbn in He; [discriminate|].
    inversion Hdicts as [|? ? [d ->] Hrest]; subst.
    cbn in He. destruct (dict_get "id" d) as [x|].
    + destruct (traverse (fun record => subscript record "id") rest) as [ys|e0];
        [discriminate|].
      injection He as ->. apply IH; [reflexivity | exact Hrest].
    + injection He as <-. reflexivity.
Qed.

Lemma fetch_missing_id_routed_witness :
  exists e,
    traverse (fun record => subscript record "id")
             [PDict policy_EP1; PDict policy_unnamed; PDict policy_EP2] = Raise e
    /\ fetch_escalation_policy_ids fake_service_missing_id (Some "U1")
       = ([EGetClient;
           EListAll "/escalation_policies" [("user_ids[]", PList [PStr "U1"])];
           EParse (PDict policy_EP1); EParse (PDict policy_unnamed);
           EParse (PDict policy_EP2)] ++ [ERoute e],
          routed fake_service_missing_id e)
    /\ (forall ids,
          snd (fetch_escalation_policy_ids fake_service_missing_id (Some "U1"))
            <> Ret (PList ids))
    /\ (Forall (fun record => exists d, record = PDict d)
               [PDict policy_EP1; PDict policy_unnamed; PDict policy_EP2] ->
        e = mkExn KeyError "id").
Proof.
  apply (fetch_missing_id_routed fake_service_missing_id "U1" _
           (list_envelope fake_service_missing_id [policy_EP1; policy_unnamed; policy_EP2])).
  - discriminate.
  - reflexivity.
  - reflexivity.
  - apply Exists_cons_tl, Exists_cons_hd. exists policy_unnamed. split; reflexivity.
Defined.

(** ** Runs against the fakes *)

(** [list_escalation_policies(team_ids=["T1","T2"])] sends both ids under
    [team_ids[]]. *)
Example list_team_ids_run :
  filter is_network
         (fst (list_escalation_policies fake_service None None (Some ["T1"; "T2"]) None))
    = [EListAll "/escalation_policies" [("team_ids[]", PList [PStr "T1"; PStr "T2"])]].
Proof. reflexivity. Qed.

(** All four filters, in the order the source stores them. *)
Example list_all_filters_run :
  list_params (Some "db") (Some ["U1"]) (Some ["T1"]) (Some 5%Z)
    = [("query", PStr "db"); ("user_ids[]", PList [PStr "U1"]);
       ("team_ids[]", PList [PStr "T1"]); ("limit", PInt 5)].
Proof. reflexivity. Qed.

(** A failure of the listing request seen through
    [fetch_escalation_policy_ids]: the list operation routes it, and the
    error it raises is routed once more by the helper's own handler. *)
Example fetch_unreachable_run :
  fetch_escalation_policy_ids fake_unreachable (Some "U1")
    = ([EGetClient;
        EListAll "/escalation_policies" [("user_ids[]", PList [PStr "U1"])];
        ERoute (mkExn (OtherException "HTTPError") "503 Service Unavailable");
        ERoute (mkExn RuntimeError "API request failed: 503 Service Unavailable")],
       Raise (mkExn RuntimeError
                "API request failed: API request failed: 503 Service Unavailable")).
Proof. reflexivity. Qed.

(** ** Further properties of list_escalation_policies *)

(** X1: [query=""] gives the same run as leaving [query] out, whatever the
    other filters, and the one request sent has no [query] parameter; with a
    non-empty [query] the one request sent has it, unchanged, under the key
    [query]. *)
Theorem list_query_empty_same_as_absent (C : Collaborators)
        (user_ids team_ids : option (list string)) (limit : option Z) (q : string) :
  list_escalation_policies C (Some "") user_ids team_ids limit
    = list_escalation_policies C None user_ids team_ids limit
  /\ dict_get "query" (list_params (Some "") user_ids team_ids limit) = None
  /\ (q <> "" ->
      dict_get "query" (list_params (Some q) user_ids team_ids limit) = Some (PStr q))
  /\ (exists params,
        requests (list_escalation_policies C (Some "") user_ids team_ids limit)
          = [EListAll "/escalation_policies" params]
        /\ dict_get "query" params = None)
  /\ (q <> "" ->
      exists params,
        requests (list_escalation_policies C (Some q) user_ids team_ids limit)
          = [EListAll "/escalation_policies" params]
        /\ dict_get "query" params = Some (PStr q)).
Proof.
  assert (Hempty : dict_get "query" (list_params (Some "") user_ids team_ids limit) = None).
  { unfold list_params. cbn [of_opt_str truthy String.eqb negb].
    destruct (truthy (of_opt_strs user_ids)), (truthy (of_opt_strs team_ids)),
      (truthy (of_opt_int limit)); reflexivity. }
  assert (Hsent : q <> "" ->
    dict_get "query" (list_params (Some q) user_ids team_ids limit) = Some (PStr q)).
  { intros Hne. unfold list_params. cbn [of_opt_str].
    rewrite (nonempty_truthy q Hne).
    destruct (truthy (of_opt_strs user_ids)), (truthy (of_opt_strs team_ids)),
      (truthy (of_opt_int limit)); reflexivity. }
  split; [reflexivity|]. split; [exact Hempty|]. split; [exact Hsent|]. split.
  - eexists. split; [apply list_one_request | exact Hempty].
  - intros Hne. eexists. split; [apply list_one_request | exact (Hsent Hne)].
Qed.

Lemma list_query_empty_same_as_absent_witness :
  exists params,
    requests (list_escalation_policies fake_service (Some "db") (Some ["U1"]) None (Some 5%Z))
      = [EListAll "/escalation_policies" params]
    /\ dict_get "query" params = Some (PStr "db").
Proof.
  apply (list_query_empty_same_as_absent fake_service (Some ["U1"]) None (Some 5%Z) "db").
  discriminate.
Defined.

(** X2: whatever the arguments, the request parameters have no key twice,
    only keys among [query], [user_ids[]], [team_ids[]] and [limit], and no
    falsy value: [None], [""], [[]] and [0] are never sent. *)
Theorem list_params_invariant
        (query : option string) (user_ids team_ids : option (list string))
        (limit : option Z) :
  NoDup (map fst (list_params query user_ids team_ids limit))
  /\ incl (map fst (list_params query user_ids team_ids limit)) list_param_keys
  /\ Forall (fun entry => truthy (snd entry) = true)
            (list_params query user_ids team_ids limit).
Proof.
  unfold list_params, list_param_keys.
  destruct (truthy (of_opt_str query)) eqn:Hq,
           (truthy (of_opt_strs user_ids)) eqn:Hu,
           (truthy (of_opt_strs team_ids)) eqn:Ht,
           (truthy (of_opt_int limit)) eqn:Hl;
    cbn [dict_set String.eqb Ascii.eqb Bool.eqb map fst];
    (split; [|split]);
    try (repeat constructor; cbn; intuition discriminate);
    try (intros k Hk; cbn in Hk |- *; intuition auto);
    try (repeat constructor; cbn [snd]; assumption).
Qed.

Lemma only_parses_in_parses (raws : list pyval) :
  filter is_parse (map EParse raws) = map EParse raws.
Proof.
  induction raws as [|raw rest IH]; [reflexivity|]. cbn. rewrite IH. reflexivity.
Qed.

(** The loop over the response stops at the first record the normalizer
    rejects. *)
Lemma comprehension_parse_first_failure (C : Collaborators) (raws : list pyval) (e : exn) :
  traverse (parse_escalation_policy C) raws = Raise e ->
  exists k record records,
    nth_error raws k = Some record
    /\ parse_escalation_policy C record = Raise e
    /\ traverse (parse_escalation_policy C) (firstn k raws) = Ret records
    /\ comprehension (parse C) raws = (map EParse (firstn (S k) raws), Raise e).
Proof.
  induction raws as [|raw rest IH]; intros H; cbn in H; [discriminate|].
  destruct (parse_escalation_policy C raw) as [p|e0] eqn:Hraw.
  - destruct (traverse (parse_escalation_policy C) rest) as [ps|e0] eqn:Hrest;
      [discriminate|].
    injection H as ->. destruct (IH eq_refl) as [k [record [records [Hk [He [Hpre Hrun]]]]]].
    exists (S k), record, (p :: records).
    split; [exact Hk|]. split; [exact He|]. split.
    + cbn. rewrite Hraw, Hpre. reflexivity.
    + cbn [comprehension]. unfold parse at 1, call, bind.
      rewrite Hraw, Hrun. reflexivity.
  - injection H as ->. exists 0%nat, raw, [].
    split; [reflexivity|]. split; [exact Hraw|]. split; [reflexivity|].
    cbn [comprehension]. unfold parse at 1, call, bind. rewrite Hraw. reflexivity.
Qed.

Lemma list_run_loop_raises (C : Collaborators) query user_ids team_ids limit raws t e :
  list_all C ESCALATION_POLICIES_URL (list_params query user_ids team_ids limit) = Ret raws ->
  comprehension (parse C) raws = (t, Raise e) ->
  list_escalation_policies C query user_ids team_ids limit =
    (EGetClient
       :: EListAll ESCALATION_POLICIES_URL (list_params query user_ids team_ids limit)
       :: t ++ [ERoute e],
     routed C e).
Proof.
  intros Hreq Hrun.
  unfold list_escalation_policies, list_try, pd_list_all, get_api_client, call.
  cbn [bind]. rewrite Hreq. cbn [bind]. rewrite Hrun. cbn [bind try_except].
  rewrite except_route_run. reflexivity.
Qed.

(** X3: the records of the response are handed to the normalizer one by
    one, in the order of the response.  When all are accepted each one is
    normalized exactly once; when one is rejected, it is the first such
    record, the records before it were accepted, the records after it are
    never handed to the normalizer, and its exception is the one routed. *)
Theorem list_normalizes_in_order_until_failure (C : Collaborators)
        (query : option string) (user_ids team_ids : option (list string))
        (limit : option Z) (raws : list pyval) :
  list_all C ESCALATION_POLICIES_URL (list_params query user_ids team_ids limit) = Ret raws ->
  (forall records,
     traverse (parse_escalation_policy C) raws = Ret records ->
     filter is_parse (fst (list_escalation_policies C query user_ids team_ids limit))
       = map EParse raws)
  /\ (forall e,
        traverse (parse_escalation_policy C) raws = Raise e ->
        exists k record accepted,
          nth_error raws k = Some record
          /\ parse_escalation_policy C record = Raise e
          /\ traverse (parse_escalation_policy C) (firstn k raws) = Ret accepted
          /\ filter is_parse (fst (list_escalation_policies C query user_ids team_ids limit))
             = map EParse (firstn k raws) ++ [EParse record]
          /\ snd (list_escalation_policies C query user_ids team_ids limit) = routed C e).
Proof.
  intros Hreq. split.
  - intros records Hparse.
    rewrite (list_run_ok C _ _ _ _ raws records Hreq Hparse). cbn.
    apply only_parses_in_parses.
  - intros e Hparse.
    destruct (comprehension_parse_first_failure C raws e Hparse)
      as [k [record [accepted [Hk [He [Hpre Hrun]]]]]].
    exists k, record, accepted.
    split; [exact Hk|]. split; [exact He|]. split; [exact Hpre|].
    rewrite (list_run_loop_raises C _ _ _ _ raws _ e Hreq Hrun). cbn [fst snd].
    split; [|reflexivity].
    cbn. rewrite filter_app, only_parses_in_parses. cbn. rewrite app_nil_r.
    clear - Hk. revert k Hk.
    induction raws as [|raw rest IH]; intros [|k] Hk; cbn in Hk; try discriminate.
    + injection Hk as ->. reflexivity.
    + cbn. f_equal. apply (IH k Hk).
Qed.

Lemma list_normalizes_in_order_until_failure_witness :
  exists k record accepted,
    nth_error [PDict policy_EP1; PStr "garbage"; PDict policy_EP2] k = Some record
    /\ parse_escalation_policy fake_malformed record
       = Raise (mkExn (OtherException "AttributeError") "object has no attribute 'get'")
    /\ traverse (parse_escalation_policy fake_malformed)
                (firstn k [PDict policy_EP1; PStr "garbage"; PDict policy_EP2])
       = Ret accepted
    /\ filter is_parse (fst (list_escalation_policies fake_malformed None None None None))
       = map EParse (firstn k [PDict policy_EP1; PStr "garbage"; PDict policy_EP2])
           ++ [EParse record]
    /\ snd (list_escalation_policies fake_malformed None None None None)
       = routed fake_malformed
           (mkExn (OtherException "AttributeError") "object has no attribute 'get'").
Proof.
  apply (proj2 (list_normalizes_in_order_until_failure fake_malformed None None None None
                  [PDict policy_EP1; PStr "garbage"; PDict policy_EP2] eq_refl)).
  reflexivity.
Defined.

(** ** Further properties of show_escalation_policy *)

Lemma try_route_raise (C : Collaborators) (t : list event) (e : exn) :
  try_except (t, Raise e) (except_route C) = (t ++ [ERoute e], routed C e).
Proof.
  cbn [try_except]. rewrite except_route_run. reflexivity.
Qed.

Lemma with_client_run (m : M pyval) :
  (get_api_client ;;; m) = (EGetClient :: fst m, snd m).
Proof.
  destruct m as [t r]. reflexivity.
Qed.

(** X4: for a non-empty [policy_id], an exception raised by the request, or
    by the normalizer on the extracted policy, is caught and handed to
    [handle_api_error] as it is; after a failed request neither the
    extraction nor the normalizer runs. *)
Theorem show_failures_routed (C : Collaborators) (policy_id : string) (e : exn) :
  policy_id <> "" ->
  (jget C ("/escalation_policies/" ++ policy_id) = Raise e ->
   show_escalation_policy C (Some policy_id)
     = ([EGetClient; EJGet ("/escalation_policies/" ++ policy_id); ERoute e], routed C e))
  /\ (forall body raw,
        jget C ("/escalation_policies/" ++ policy_id) = Ret body ->
        subscript body "escalation_policy" = Ret raw ->
        parse_escalation_policy C raw = Raise e ->
        show_escalation_policy C (Some policy_id)
          = ([EGetClient; EJGet ("/escalation_policies/" ++ policy_id); EParse raw; ERoute e],
             routed C e)).
Proof.
  intros Hne. rewrite (show_nonempty C policy_id Hne), with_client_run.
  unfold show_try, pd_jget, extract_policy, parse, call, lift.
  show_path policy_id.
  split.
  - intros Hget. cbn [bind]. rewrite Hget. rewrite try_route_raise. reflexivity.
  - intros body raw Hget Hfield Hparse.
    cbn [bind]. rewrite Hget. cbn [bind try_except]. rewrite Hfield.
    cbn [bind try_except]. rewrite Hparse. cbn [app].
    rewrite try_route_raise. reflexivity.
Qed.

Lemma show_failures_routed_witness :
  show_escalation_policy fake_unreachable (Some "EP1")
    = ([EGetClient; EJGet "/escalation_policies/EP1";
        ERoute (mkExn (OtherException "HTTPError") "503 Service Unavailable")],
       routed fake_unreachable (mkExn (OtherException "HTTPError") "503 Service Unavailable"))
  /\ show_escalation_policy fake_malformed (Some "EP1")
    = ([EGetClient; EJGet "/escalation_policies/EP1"; EParse PNone;
        ERoute (mkExn (OtherException "AttributeError") "object has no attribute 'get'")],
       routed fake_malformed
              (mkExn (OtherException "AttributeError") "object has no attribute 'get'")).
Proof.
  split.
  - apply (proj1 (show_failures_routed fake_unreachable "EP1" _ ltac:(discriminate))).
    reflexivity.
  - apply (proj2 (show_failures_routed fake_malformed "EP1" _ ltac:(discriminate))
             (PDict [("escalation_policy", PNone)]) PNone);
      reflexivity.
Defined.

(** X5: the inner handler of [show_escalation_policy] catches [KeyError]
    only.  When the body of the response is not an object, the subscript
    raises a [TypeError], which is routed as it is: the [RuntimeError] naming
    the missing field is not built, and the normalizer is not called. *)
Theorem show_non_object_body_type_error (C : Collaborators) (policy_id : string)
        (body : pyval) :
  policy_id <> "" ->
  jget C ("/escalation_policies/" ++ policy_id) = Ret body ->
  is_dict body = false ->
  exists e,
    subscript body "escalation_policy" = Raise e
    /\ exn_kind e = TypeError
    /\ show_escalation_policy C (Some policy_id)
       = ([EGetClient; EJGet ("/escalation_policies/" ++ policy_id); ERoute e], routed C e).
Proof.
  intros Hne Hget Hbody.
  assert (Hsub : exists e, subscript body "escalation_policy" = Raise e
                           /\ exn_kind e = TypeError).
  { destruct body; try discriminate Hbody; eexists; split; reflexivity. }
  destruct Hsub as [e [Hsub Hkind]]. exists e.
  split; [exact Hsub|]. split; [exact Hkind|].
  rewrite (show_nonempty C policy_id Hne), with_client_run.
  unfold show_try, pd_jget, extract_policy, call, lift.
  show_path policy_id.
  cbn [bind]. rewrite Hget. cbn [bind try_except]. rewrite Hsub.
  cbn [try_except]. rewrite Hkind. cbn [raise bind app].
  rewrite try_route_raise. reflexivity.
Qed.

Lemma show_non_object_body_type_error_witness :
  exists e,
    subscript (PList []) "escalation_policy" = Raise e
    /\ exn_kind e = TypeError
    /\ show_escalation_policy fake_malformed (Some "EP7")
       = ([EGetClient; EJGet "/escalation_policies/EP7"; ERoute e],
          routed fake_malformed e).
Proof.
  apply (show_non_object_body_type_error fake_malformed "EP7" (PList []));
    [discriminate | reflexivity | reflexivity].
Defined.

(** ** Further properties of fetch_escalation_policy_ids *)

Lemma project_ids_silent (results : pyval) : fst (project_ids results) = [].
Proof.
  unfold project_ids.
  destruct (subscript results "escalation_policies") as [records|e]; [|reflexivity].
  unfold lift at 1. cbn [bind].
  destruct (py_iter records) as [items|e]; [|reflexivity].
  unfold lift at 1. cbn [bind].
  rewrite comprehension_lift. unfold lift.
  destruct (traverse _ items); reflexivity.
Qed.

Lemma fetch_try_run (C : Collaborators) (user_id : string) :
  fetch_try C user_id
    = match list_escalation_policies C None (Some [user_id]) None None with
      | (t, Ret results) => (t, snd (project_ids results))
      | (t, Raise e) => (t, Raise e)
      end.
Proof.
  change (fetch_try C user_id)
    with (bind (list_escalation_policies C None (Some [user_id]) None None) project_ids).
  destruct (list_escalation_policies C None (Some [user_id]) None None) as [t [results|e]];
    [|reflexivity].
  cbn [bind]. pose proof (project_ids_silent results) as Hsilent.
  destruct (project_ids results) as [t' r]. cbn in Hsilent. subst t'.
  rewrite app_nil_r. reflexivity.
Qed.

(** X6: for a non-empty [user_id], whatever the collaborators do, the only
    request behind [fetch_escalation_policy_ids] is the listing with the
    single parameter [user_ids[] = [user_id]]: no other filter is sent and
    nothing is requested twice. *)
Theorem fetch_single_request (C : Collaborators) (user_id : string) :
  user_id <> "" ->
  filter is_network (fst (fetch_escalation_policy_ids C (Some user_id)))
    = [EListAll "/escalation_policies" [("user_ids[]", PList [PStr user_id])]].
Proof.
  intros Hne. rewrite (fetch_nonempty C user_id Hne), fetch_try_run.
  pose proof (list_one_request C None (Some [user_id]) None None) as Hone.
  destruct (list_escalation_policies C None (Some [user_id]) None None) as [t [results|e]];
    cbn [fst] in Hone.
  - destruct (snd (project_ids results)) as [ids|e].
    + exact Hone.
    + rewrite try_route_raise. cbn [fst]. rewrite filter_app, Hone. reflexivity.
  - rewrite try_route_raise. cbn [fst]. rewrite filter_app, Hone. reflexivity.
Qed.

Lemma fetch_single_request_witness :
  filter is_network (fst (fetch_escalation_policy_ids fake_unreachable (Some "U1")))
    = [EListAll "/escalation_policies" [("user_ids[]", PList [PStr "U1"])]].
Proof.
  apply (fetch_single_request fake_unreachable "U1"). discriminate.
Defined.

(** X7: when the listing request fails and [handle_api_error] raises for
    it, [fetch_escalation_policy_ids] catches the error the list operation
    raised and hands it to [handle_api_error] a second time: the caller gets
    the outcome of routing the already routed error. *)
Theorem fetch_list_failure_routed_twice (C : Collaborators) (user_id : string)
        (e e' : exn) :
  user_id <> "" ->
  list_all C "/escalation_policies" [("user_ids[]", PList [PStr user_id])] = Raise e ->
  handle_api_error C e = Raise e' ->
  fetch_escalation_policy_ids C (Some user_id)
    = ([EGetClient;
        EListAll "/escalation_policies" [("user_ids[]", PList [PStr user_id])];
        ERoute e; ERoute e'],
       routed C e').
Proof.
  intros Hne Hreq Hroute.
  rewrite (fetch_nonempty C user_id Hne), fetch_try_run.
  rewrite (list_run_request_fails C None (Some [user_id]) None None e Hreq).
  unfold routed at 1. rewrite Hroute. rewrite try_route_raise. reflexivity.
Qed.

Lemma fetch_list_failure_routed_twice_witness :
  fetch_escalation_policy_ids fake_unreachable (Some "U1")
    = ([EGetClient;
        EListAll "/escalation_policies" [("user_ids[]", PList [PStr "U1"])];
        ERoute (mkExn (OtherException "HTTPError") "503 Service Unavailable");
        ERoute (mkExn RuntimeError "API request failed: 503 Service Unavailable")],
       routed fake_unreachable
              (mkExn RuntimeError "API request failed: 503 Service Unavailable")).
Proof.
  apply (fetch_list_failure_routed_twice fake_unreachable "U1");
    [discriminate | reflexivity | reflexivity].
Defined.

(** X8: when the listing request fails and [handle_api_error] returns for
    it, the list operation returns [None]; [fetch_escalation_policy_ids]
    then subscripts [None], and what it routes is the resulting [TypeError],
    not the failure of the request. *)
Theorem fetch_swallowed_failure_becomes_type_error (C : Collaborators)
        (user_id : string) (e : exn) :
  user_id <> "" ->
  list_all C "/escalation_policies" [("user_ids[]", PList [PStr user_id])] = Raise e ->
  handle_api_error C e = Ret tt ->
  list_escalation_policies C None (Some [user_id]) None None
    = ([EGetClient;
        EListAll "/escalation_policies" [("user_ids[]", PList [PStr user_id])];
        ERoute e],
       Ret PNone)
  /\ fetch_escalation_policy_ids C (Some user_id)
     = ([EGetClient;
         EListAll "/escalation_policies" [("user_ids[]", PList [PStr user_id])];
         ERoute e;
         ERoute (mkExn TypeError "'NoneType' object is not subscriptable")],
        routed C (mkExn TypeError "'NoneType' object is not subscriptable")).
Proof.
  intros Hne Hreq Hroute.
  assert (Hlist : list_escalation_policies C None (Some [user_id]) None None
            = ([EGetClient;
                EListAll "/escalation_policies" [("user_ids[]", PList [PStr user_id])];
                ERoute e],
               Ret PNone)).
  { rewrite (list_run_request_fails C None (Some [user_id]) None None e Hreq).
    unfold routed. rewrite Hroute. reflexivity. }
  split; [exact Hlist|].
  rewrite (fetch_nonempty C user_id Hne), fetch_try_run, Hlist.
  cbn [project_ids subscript lift bind snd type_name].
  rewrite try_route_raise. reflexivity.
Qed.

Lemma fetch_swallowed_failure_becomes_type_error_witness :
  fetch_escalation_policy_ids fake_unreachable_silent (Some "U1")
    = ([EGetClient;
        EListAll "/escalation_policies" [("user_ids[]", PList [PStr "U1"])];
        ERoute (mkExn (OtherException "HTTPError") "503 Service Unavailable");
        ERoute (mkExn TypeError "'NoneType' object is not subscriptable")],
       Ret PNone).
Proof.
  apply (fetch_swallowed_failure_becomes_type_error fake_unreachable_silent "U1");
    [discriminate | reflexivity | reflexivity].
Defined.

(** ** What leaves the module *)

(** A [try] whose handler is [except_route] either returns what its body
    returned or ends with the routing of the body's exception. *)
Lemma try_route_cases (C : Collaborators) (m : M pyval) :
  (exists a, snd m = Ret a /\ try_except m (except_route C) = m)
  \/ (exists e, snd m = Raise e
                /\ try_except m (except_route C) = (fst m ++ [ERoute e], routed C e)).
Proof.
  destruct m as [t [a|e]].
  - left. exists a. split; reflexivity.
  - right. exists e. split; [reflexivity | apply try_route_raise].
Qed.

Lemma try_route_raise_origin (C : Collaborators) (m : M pyval) (e' : exn) :
  snd (try_except m (except_route C)) = Raise e' ->
  exists e, In (ERoute e) (fst (try_except m (except_route C)))
            /\ handle_api_error C e = Raise e'.
Proof.
  intros Hraise.
  destruct (try_route_cases C m) as [[a [Ha Hrun]] | [e [He Hrun]]];
    rewrite Hrun in Hraise |- *.
  - rewrite Ha in Hraise. discriminate.
  - exists e. cbn [fst snd] in Hraise |- *. split.
    + apply in_or_app. right. left. reflexivity.
    + unfold routed in Hraise. destruct (handle_api_error C e) as [u|e0];
        [discriminate|]. injection Hraise as ->. reflexivity.
Qed.

Lemma try_route_silent (C : Collaborators) (m : M pyval) :
  (forall e, handle_api_error C e = Ret tt) ->
  exists v, snd (try_except m (except_route C)) = Ret v
            /\ (forall e, snd m = Raise e -> v = PNone).
Proof.
  intros Hsilent.
  destruct (try_route_cases C m) as [[a [Ha Hrun]] | [e [He Hrun]]]; rewrite Hrun.
  - exists a. split; [exact Ha|]. intros e He. rewrite Ha in He. discriminate.
  - exists PNone. cbn [snd]. unfold routed. rewrite Hsilent.
    split; [reflexivity|]. intros _ _. reflexivity.
Qed.

Lemma guard_cases (s : option string) :
  (s = None \/ s = Some "") \/ (exists id, s = Some id /\ id <> "").
Proof.
  destruct s as [id|]; [|left; left; reflexivity].
  destruct (String.eqb_spec id "") as [->|Hne].
  - left. right. reflexivity.
  - right. exists id. split; [reflexivity | exact Hne].
Qed.

(** X9: an exception that leaves one of the three functions is either the
    [ValueError] of the guard of [show_escalation_policy] or
    [fetch_escalation_policy_ids], raised before any collaborator is called,
    or an exception raised by [handle_api_error] for an error it was handed.
    [list_escalation_policies] has no guard: it raises nothing of its own,
    for empty [user_ids] or [team_ids] either. *)
Theorem raised_exceptions_origin (C : Collaborators) (e' : exn) :
  (forall query user_ids team_ids limit,
     snd (list_escalation_policies C query user_ids team_ids limit) = Raise e' ->
     exists e,
       In (ERoute e) (fst (list_escalation_policies C query user_ids team_ids limit))
       /\ handle_api_error C e = Raise e')
  /\ (forall policy_id,
        snd (show_escalation_policy C policy_id) = Raise e' ->
        (fst (show_escalation_policy C policy_id) = []
         /\ e' = mkExn ValueError "policy_id cannot be empty")
        \/ (exists e,
              In (ERoute e) (fst (show_escalation_policy C policy_id))
              /\ handle_api_error C e = Raise e'))
  /\ (forall user_id,
        snd (fetch_escalation_policy_ids C user_id) = Raise e' ->
        (fst (fetch_escalation_policy_ids C user_id) = []
         /\ e' = mkExn ValueError "user_id cannot be empty")
        \/ (exists e,
              In (ERoute e) (fst (fetch_escalation_policy_ids C user_id))
              /\ handle_api_error C e = Raise e')).
Proof.
  split; [|split].
  - intros query user_ids team_ids limit.
    unfold list_escalation_policies. rewrite with_client_run. cbn [fst snd].
    intros Hraise. destruct (try_route_raise_origin C _ e' Hraise) as [e [Hin He]].
    exists e. split; [right; exact Hin | exact He].
  - intros policy_id Hraise.
    destruct (guard_cases policy_id) as [[-> | ->] | [id [-> Hne]]].
    + left. split; [reflexivity|]. cbn in Hraise. injection Hraise as <-. reflexivity.
    + left. split; [reflexivity|]. cbn in Hraise. injection Hraise as <-. reflexivity.
    + right. rewrite (show_nonempty C id Hne), with_client_run in Hraise |- *.
      cbn [fst snd] in Hraise |- *.
      destruct (try_route_raise_origin C _ e' Hraise) as [e [Hin He]].
      exists e. split; [right; exact Hin | exact He].
  - intros user_id Hraise.
    destruct (guard_cases user_id) as [[-> | ->] | [id [-> Hne]]].
    + left. split; [reflexivity|]. cbn in Hraise. injection Hraise as <-. reflexivity.
    + left. split; [reflexivity|]. cbn in Hraise. injection Hraise as <-. reflexivity.
    + right. rewrite (fetch_nonempty C id Hne) in Hraise |- *.
      apply try_route_raise_origin. exact Hraise.
Qed.

Lemma raised_exceptions_origin_witness :
  exists e,
    In (ERoute e) (fst (list_escalation_policies fake_unreachable None None None None))
    /\ handle_api_error fake_unreachable e
       = Raise (mkExn RuntimeError "API request failed: 503 Service Unavailable").
Proof.
  apply (proj1 (raised_exceptions_origin fake_unreachable
                  (mkExn RuntimeError "API request failed: 503 Service Unavailable"))
           None None None None).
  reflexivity.
Defined.

(** After a swallowed failure of the listing, the body of the [try] of
    [fetch_escalation_policy_ids] raises. *)
Lemma fetch_swallowed_list_none (C : Collaborators) (user_id : string) (e : exn) :
  user_id <> "" ->
  list_all C "/escalation_policies" [("user_ids[]", PList [PStr user_id])] = Raise e ->
  handle_api_error C e = Ret tt ->
  exists e0, snd (fetch_try C user_id) = Raise e0.
Proof.
  intros Hne Hreq Hroute. rewrite fetch_try_run.
  rewrite (list_run_request_fails C None (Some [user_id]) None None e Hreq).
  unfold routed. rewrite Hroute. eexists. reflexivity.
Qed.

(** X10: when [handle_api_error] returns instead of raising, no failure of
    a collaborator reaches the caller as an exception: past the guards every
    call returns, and it returns [None] whenever the request failed. *)
Theorem silent_router_returns_none (C : Collaborators) :
  (forall e, handle_api_error C e = Ret tt) ->
  (forall query user_ids team_ids limit,
     exists v,
       snd (list_escalation_policies C query user_ids team_ids limit) = Ret v
       /\ (forall e,
             list_all C ESCALATION_POLICIES_URL
                      (list_params query user_ids team_ids limit) = Raise e ->
             v = PNone))
  /\ (forall policy_id,
        policy_id <> "" ->
        exists v,
          snd (show_escalation_policy C (Some policy_id)) = Ret v
          /\ (forall e,
                jget C ("/escalation_policies/" ++ policy_id) = Raise e -> v = PNone))
  /\ (forall user_id,
        user_id <> "" ->
        exists v,
          snd (fetch_escalation_policy_ids C (Some user_id)) = Ret v
          /\ (forall e,
                list_all C "/escalation_policies"
                         [("user_ids[]", PList [PStr user_id])] = Raise e ->
                v = PNone)).
Proof.
  intros Hsilent. split; [|split].
  - intros query user_ids team_ids limit.
    unfold list_escalation_policies. rewrite with_client_run. cbn [snd].
    destruct (try_route_silent C (list_try C (list_params query user_ids team_ids limit))
                Hsilent) as [v [Hv Hnone]].
    exists v. split; [exact Hv|]. intros e Hreq. apply (Hnone e).
    unfold list_try, pd_list_all, call. cbn [bind]. rewrite Hreq. reflexivity.
  - intros policy_id Hne.
    rewrite (show_nonempty C policy_id Hne), with_client_run. cbn [snd].
    destruct (try_route_silent C (show_try C policy_id) Hsilent) as [v [Hv Hnone]].
    exists v. split; [exact Hv|]. intros e Hreq. apply (Hnone e).
    unfold show_try, pd_jget, call. show_path policy_id.
    cbn [bind]. rewrite Hreq. reflexivity.
  - intros user_id Hne.
    rewrite (fetch_nonempty C user_id Hne).
    destruct (try_route_silent C (fetch_try C user_id) Hsilent) as [v [Hv Hnone]].
    exists v. split; [exact Hv|]. intros e Hreq.
    destruct (fetch_swallowed_list_none C user_id e Hne Hreq (Hsilent e)) as [e0 He0].
    apply (Hnone e0). exact He0.
Qed.

Lemma silent_router_returns_none_witness :
  exists v,
    snd (show_escalation_policy fake_unreachable_silent (Some "EP1")) = Ret v
    /\ (forall e,
          jget fake_unreachable_silent ("/escalation_policies/" ++ "EP1") = Raise e ->
          v = PNone).
Proof.
  apply (proj1 (proj2 (silent_router_returns_none fake_unreachable_silent
                         (fun e => eq_refl))) "EP1").
  discriminate.
Defined.
